(** * Walkspan: spatial retrieval of sidewalk segments

    Shallow embedding of [src/lib/geocoder.js]
    ([getBoundingBoxFromCoordinatesAndRange]), [src/model/db.js]
    ([getClosestSidewalk], [getSidewalksInRadius] and the module's top
    level), [src/lib/overpass.js] and [src/lib/essentialsHelper.js].

    The function bodies model JavaScript numbers (and SQLite REAL columns)
    as Rocq real numbers [R]: every arithmetic operation is exact,
    [Math.cos] is [cos] and [Math.PI] is [PI].  The bounding box is also
    written over binary64 floats and over rounded reals (section
    "getBoundingBoxFromCoordinatesAndRange in JavaScript numbers").  A
    database table is the list of its rows, in storage order. *)

From Stdlib Require Import Strings.String Strings.Ascii.
From Stdlib Require Import Reals Lra Lia List Bool Permutation Sorting.Sorted.
From Stdlib Require Floats.
Import ListNotations.
Open Scope R_scope.

(** Boolean versions of the comparisons used by the SQL queries and by
    underscore's comparator. *)
Definition Rleb (x y : R) : bool := if Rle_dec x y then true else false.
Definition Rltb (x y : R) : bool := if Rlt_dec x y then true else false.

Lemma Rleb_true (x y : R) : Rleb x y = true <-> x <= y.
Proof. unfold Rleb; destruct (Rle_dec x y); split; intros; try lra; discriminate. Qed.

(* ------------------------------------------------------------------ *)
(** ** src/lib/geocoder.js : getBoundingBoxFromCoordinatesAndRange *)

Record BoundingBox := {
  topLat : R;
  bottomLat : R;
  leftLng : R;
  rightLng : R
}.

(** Line by line:
<<
  const pDistanceInMeters = range * 1609.344;
  const latRadian = Number(latitude) * Math.PI/180;
  const degLatKm = 110.574235;
  const degLongKm = 110.572833 * Math.cos(latRadian);
  const deltaLat = pDistanceInMeters / 1000.0 / degLatKm;
  const deltaLong = pDistanceInMeters / 1000.0 / degLongKm;
>> *)
Definition getBoundingBoxFromCoordinatesAndRange
    (latitude longitude range : R) : BoundingBox :=
  let pDistanceInMeters := range * 1609.344 in
  let latRadian := latitude * PI / 180 in
  let degLatKm := 110.574235 in
  let degLongKm := 110.572833 * cos latRadian in
  let deltaLat := pDistanceInMeters / 1000.0 / degLatKm in
  let deltaLong := pDistanceInMeters / 1000.0 / degLongKm in
  {| topLat := latitude + deltaLat;
     bottomLat := latitude - deltaLat;
     leftLng := longitude - deltaLong;
     rightLng := longitude + deltaLong |}.

(* ------------------------------------------------------------------ *)
(** ** The distance-to-line-segment package ([distanceToLineSegment])

    [db.js] imports [distanceToLineSegment] from the npm package
    [distance-to-line-segment]; its code is
<<
  function distanceSquaredToLineSegment2(lx1, ly1, ldx, ldy, lineLengthSquared, px, py) {
     var t;
     if (!lineLengthSquared) { t = 0; }
     else {
        t = ((px - lx1) * ldx + (py - ly1) * ldy) / lineLengthSquared;
        if (t < 0) t = 0; else if (t > 1) t = 1;
     }
     var lx = lx1 + t * ldx, ly = ly1 + t * ldy, dx = px - lx, dy = py - ly;
     return dx*dx + dy*dy;
  }
  function distanceSquaredToLineSegment(lx1, ly1, lx2, ly2, px, py) {
     var ldx = lx2 - lx1, ldy = ly2 - ly1, lineLengthSquared = ldx*ldx + ldy*ldy;
     return distanceSquaredToLineSegment2(lx1, ly1, ldx, ldy, lineLengthSquared, px, py);
  }
  function distanceToLineSegment(lx1, ly1, lx2, ly2, px, py) {
     return Math.sqrt(distanceSquaredToLineSegment(lx1, ly1, lx2, ly2, px, py));
  }
>> *)
Definition distanceSquaredToLineSegment2
    (lx1 ly1 ldx ldy lineLengthSquared px py : R) : R :=
  let t :=
    if Req_dec_T lineLengthSquared 0 then 0
    else
      let t0 := ((px - lx1) * ldx + (py - ly1) * ldy) / lineLengthSquared in
      if Rlt_dec t0 0 then 0 else if Rlt_dec 1 t0 then 1 else t0 in
  let lx := lx1 + t * ldx in
  let ly := ly1 + t * ldy in
  let dx := px - lx in
  let dy := py - ly in
  dx * dx + dy * dy.

Definition distanceSquaredToLineSegment (lx1 ly1 lx2 ly2 px py : R) : R :=
  let ldx := lx2 - lx1 in
  let ldy := ly2 - ly1 in
  let lineLengthSquared := ldx * ldx + ldy * ldy in
  distanceSquaredToLineSegment2 lx1 ly1 ldx ldy lineLengthSquared px py.

Definition distanceToLineSegment (lx1 ly1 lx2 ly2 px py : R) : R :=
  sqrt (distanceSquaredToLineSegment lx1 ly1 lx2 ly2 px py).

(* ------------------------------------------------------------------ *)
(** ** underscore's [sortBy]

    [_.sortBy(list, iteratee)] pairs every element with its index and its
    criterion, sorts with the comparator
<<
  if (a !== b) { if (a > b || a === void 0) return 1;
                 if (a < b || b === void 0) return -1; }
  return left.index - right.index;
>>
    and projects the values back.  On real criteria this comparator is a
    total order, so the result is the unique stable sort of [list] by the
    criterion; we compute it by insertion: an element is placed in front of
    the first later element whose criterion is not smaller than its own. *)
Section SortBy.
Context {A : Type} (criterion : A -> R).

Fixpoint insert_by (x : A) (l : list A) : list A :=
  match l with
  | [] => [x]
  | y :: l' =>
      if Rle_dec (criterion x) (criterion y) then x :: y :: l'
      else y :: insert_by x l'
  end.

Definition sortBy (l : list A) : list A := fold_right insert_by [] l.
End SortBy.

(** [array[0]]: the first element, or [undefined] ([None]) on an empty
    array. *)
Definition first {A : Type} (l : list A) : option A := hd_error l.

(** ** SQLite: [ORDER BY key ASC LIMIT n]

    SQLite leaves the order of rows with equal keys unspecified; we take the
    storage order (a stable sort), one of the orders SQLite may produce. *)
Definition order_by_limit {A : Type} (key : A -> R) (n : nat) (table : list A)
    : list A :=
  firstn n (sortBy key table).

(* ------------------------------------------------------------------ *)
(** ** Rows of the two tables *)

(** A row of the [Walkspan] table, as selected by both queries of [db.js]. *)
Record WalkspanRow := {
  natural_beauty_score : R;
  manmade_beauty_score : R;
  comfort_score : R;
  interest_score : R;
  safety_score : R;
  access_score : R;
  amenities_score : R;
  sidewalk_starting_longitude : R;
  sidewalk_ending_longitude : R;
  sidewalk_starting_latitude : R;
  sidewalk_ending_latitude : R
}.

(** A row of the [Bronx_Walkability] table. *)
Record BronxRow := {
  total1 : R;
  total2 : R;
  beauty_n : R;
  beauty_m : R;
  access : R;
  interest : R;
  amenities : R;
  shape_length : R;
  start_long : R;
  end_long : R;
  start_lat : R;
  end_lat : R
}.

(** The objects a query can hand back: a row of either table. *)
Inductive Row :=
| Walkspan (w : WalkspanRow)
| Bronx (b : BronxRow).

(* ------------------------------------------------------------------ *)
(** ** Function bodies with [return]

    A statement either completes normally (execution goes on with the next
    statement) or executes [return v]; [None] is [undefined].  A call runs
    the body; falling off its end returns [undefined]. *)
Inductive completion (A : Type) : Type :=
| Normal : completion A
| Return : option A -> completion A.
Arguments Normal {A}.
Arguments Return {A} _.

Definition seq {A : Type} (c : completion A) (k : unit -> completion A)
    : completion A :=
  match c with
  | Return v => Return v
  | Normal => k tt
  end.

Notation "s1 ;;; s2" := (seq s1 (fun _ => s2))
  (at level 61, right associativity).

Definition call {A : Type} (body : completion A) : option A :=
  match body with
  | Return v => v
  | Normal => None
  end.

(* ------------------------------------------------------------------ *)
(** ** src/model/db.js : getClosestSidewalk

    The bodies below take the two tables as arguments.  The code reaches
    them only through the exports of [db.js], whose loading is modelled in
    "Loading src/model/db.js". *)

(** [ORDER BY MIN(ABS(start_lat - :latitude) + ABS(start_lng - :longitude),
    ABS(end_lat - :latitude) + ABS(end_lng - :longitude))] on [Walkspan]. *)
Definition walkspan_key (latitude longitude : R) (w : WalkspanRow) : R :=
  Rmin
    (Rabs (sidewalk_starting_latitude w - latitude)
     + Rabs (sidewalk_starting_longitude w - longitude))
    (Rabs (sidewalk_ending_latitude w - latitude)
     + Rabs (sidewalk_ending_longitude w - longitude)).

(** The same order on [Bronx_Walkability]. *)
Definition bronx_key (latitude longitude : R) (b : BronxRow) : R :=
  Rmin
    (Rabs (start_lat b - latitude) + Rabs (start_long b - longitude))
    (Rabs (end_lat b - latitude) + Rabs (end_long b - longitude)).

(** [sidewalkCandidates]: [SELECT ... FROM Walkspan ORDER BY ... LIMIT 8]. *)
Definition sidewalkCandidates (walkspan : list WalkspanRow)
    (latitude longitude : R) : list WalkspanRow :=
  order_by_limit (walkspan_key latitude longitude) 8 walkspan.

(** [sidewalkCandidates2]: [SELECT ... FROM Bronx_Walkability ... LIMIT 8]. *)
Definition sidewalkCandidates2 (bronx : list BronxRow)
    (latitude longitude : R) : list BronxRow :=
  order_by_limit (bronx_key latitude longitude) 8 bronx.

(** The sort criterion of the first return:
    [distanceToLineSegment(start_lat, start_lng, end_lat, end_lng,
    latitude, longitude)]. *)
Definition walkspan_distance (latitude longitude : R) (w : WalkspanRow) : R :=
  distanceToLineSegment
    (sidewalk_starting_latitude w) (sidewalk_starting_longitude w)
    (sidewalk_ending_latitude w) (sidewalk_ending_longitude w)
    latitude longitude.

(** The sort criterion of the second return. *)
Definition bronx_distance (latitude longitude : R) (b : BronxRow) : R :=
  distanceToLineSegment (start_lat b) (start_long b) (end_lat b) (end_long b)
    latitude longitude.

(** The body of [getClosestSidewalk]: both queries run, then
    [return sortBy(sidewalkCandidates, ...)[0];] followed by
    [return sortBy2(sidewalkCandidates2, ...)[0];]. *)
Definition getClosestSidewalk_body (walkspan : list WalkspanRow)
    (bronx : list BronxRow) (latitude longitude : R) : completion Row :=
  let candidates := sidewalkCandidates walkspan latitude longitude in
  let candidates2 := sidewalkCandidates2 bronx latitude longitude in
  Return (option_map Walkspan
            (first (sortBy (walkspan_distance latitude longitude) candidates)))
  ;;; Return (option_map Bronx
            (first (sortBy (bronx_distance latitude longitude) candidates2)))
  ;;; Normal.

Definition getClosestSidewalk (walkspan : list WalkspanRow)
    (bronx : list BronxRow) (latitude longitude : R) : option Row :=
  call (getClosestSidewalk_body walkspan bronx latitude longitude).

(* ------------------------------------------------------------------ *)
(** ** src/model/db.js : getSidewalksInRadius *)

(** [:bottomLat <= lat AND lat <= :topLat AND :leftLng <= lng AND
    lng <= :rightLng]. *)
Definition in_box (box : BoundingBox) (lat lng : R) : bool :=
  Rleb (bottomLat box) lat && Rleb lat (topLat box)
  && Rleb (leftLng box) lng && Rleb lng (rightLng box).

(** The [WHERE] clause on [Walkspan]: start endpoint in the box, or end
    endpoint in the box. *)
Definition walkspan_in_box (box : BoundingBox) (w : WalkspanRow) : bool :=
  in_box box (sidewalk_starting_latitude w) (sidewalk_starting_longitude w)
  || in_box box (sidewalk_ending_latitude w) (sidewalk_ending_longitude w).

(** The [WHERE] clause on [Bronx_Walkability]. *)
Definition bronx_in_box (box : BoundingBox) (b : BronxRow) : bool :=
  in_box box (start_lat b) (start_long b)
  || in_box box (end_lat b) (end_long b).

(** The body of [getSidewalksInRadius]: the bounding box, then
    [return db.prepare(... Walkspan ...).all(...)] followed by
    [return db2.prepare(... Bronx_Walkability ...).all(...)]. *)
Definition getSidewalksInRadius_body (walkspan : list WalkspanRow)
    (bronx : list BronxRow) (latitude longitude range : R)
    : completion (list Row) :=
  let box := getBoundingBoxFromCoordinatesAndRange latitude longitude range in
  Return (Some (map Walkspan (filter (walkspan_in_box box) walkspan)))
  ;;; Return (Some (map Bronx (filter (bronx_in_box box) bronx)))
  ;;; Normal.

Definition getSidewalksInRadius (walkspan : list WalkspanRow)
    (bronx : list BronxRow) (latitude longitude range : R)
    : option (list Row) :=
  call (getSidewalksInRadius_body walkspan bronx latitude longitude range).

(* ------------------------------------------------------------------ *)
(** ** src/lib/overpass.js : queryOverpassForTags *)

(** [s.split(c)] for a one-character separator [c]. *)
Fixpoint split_char (c : Ascii.ascii) (s : String.string) : list String.string :=
  match s with
  | String.EmptyString => [String.EmptyString]
  | String.String x s' =>
      let parts := split_char c s' in
      if Ascii.ascii_dec x c then String.EmptyString :: parts
      else
        match parts with
        | p :: ps => String.String x p :: ps
        | [] => [String.String x String.EmptyString]
        end
  end.

(** [parts.join(sep)]. *)
Fixpoint join (sep : String.string) (parts : list String.string) : String.string :=
  match parts with
  | [] => String.EmptyString
  | [p] => p
  | p :: ps => (p ++ sep ++ join sep ps)%string
  end.

Definition newline : String.string := String.String "010"%char String.EmptyString.

(** The template literal of [queryOverpassForTags], once its placeholders
    are replaced by the text of [tag] and of the four box coordinates:
<<
    const query = `
      node
        [${tag}]
        (${bottomLat}, ${leftLng}, ${topLat}, ${rightLng});
      out
    `.split(' ').join('').split('\n').join('') + ' 20;'
>> *)
Definition overpass_template (tag bottom left top right : String.string)
    : String.string :=
  (newline ++ "      node" ++ newline
   ++ "        [" ++ tag ++ "]" ++ newline
   ++ "        (" ++ bottom ++ ", " ++ left ++ ", " ++ top ++ ", " ++ right ++ ");"
   ++ newline ++ "      out" ++ newline ++ "    ")%string.

Definition overpass_query_text (tag bottom left top right : String.string)
    : String.string :=
  (join "" (split_char "010"%char
     (join "" (split_char " "%char
        (overpass_template tag bottom left top right))))
   ++ " 20;")%string.

(** The query [queryOverpassForTags(tag, latitude, longitude, range)] hands
    to [queryOverpass].  [number_to_string] is JavaScript's conversion of a
    number to its text in a template literal. *)
Definition queryOverpassForTags_query (number_to_string : R -> String.string)
    (tag : String.string) (latitude longitude range : R) : String.string :=
  let box := getBoundingBoxFromCoordinatesAndRange latitude longitude range in
  overpass_query_text tag
    (number_to_string (bottomLat box)) (number_to_string (leftLng box))
    (number_to_string (topLat box)) (number_to_string (rightLng box)).

(* ------------------------------------------------------------------ *)
(** ** src/lib/essentialsHelper.js : getLifestyleEssentials *)

(** A GeoJSON feature of an Overpass response: [properties.tags.name]
    ([None] when the tag is absent) and [geometry.coordinates]
    ([longitude, latitude]). *)
Record Feature := {
  feature_name : option String.string;
  feature_coordinates : list R
}.

(** An entry of the returned list; [None] fields are [undefined]. *)
Record Essential := {
  name : option String.string;
  essential_latitude : option R;
  essential_longitude : option R;
  category_general : String.string
}.

(** The [features.map(feature => ...)] callback. *)
Definition to_essential (category : String.string) (feature : Feature) : Essential :=
  {| name := feature_name feature;
     essential_latitude := nth_error (feature_coordinates feature) 1;
     essential_longitude := nth_error (feature_coordinates feature) 0;
     category_general := category |}.

(** [Promise.all]: every promise fulfilled gives the list of values; one
    rejection ([None]) rejects the whole. *)
Fixpoint promise_all {A : Type} (ps : list (option A)) : option (list A) :=
  match ps with
  | [] => Some []
  | p :: ps' =>
      match p, promise_all ps' with
      | Some v, Some vs => Some (v :: vs)
      | _, _ => None
      end
  end.

(** [arr.reduce((prev, next) => prev.concat(next))] with no initial value
    ([None] is the TypeError thrown on an empty array). *)
Definition reduce_concat {A : Type} (arr : list (list A)) : option (list A) :=
  match arr with
  | [] => None
  | x :: xs => Some (fold_left (fun prev next => prev ++ next) xs x)
  end.

(** [getLifestyleEssentials(latitude, longitude, range)].  [overpass] is the
    Overpass API: the [features] of the response to a query text, or [None]
    when the request (or the [.features] access) fails. *)
Definition getLifestyleEssentials (number_to_string : R -> String.string)
    (overpass : String.string -> option (list Feature))
    (latitude longitude range : R) : option (list Essential) :=
  let fetch tag category :=
    option_map (map (to_essential category))
      (overpass (queryOverpassForTags_query number_to_string tag
                   latitude longitude range)) in
  let resturants := fetch "amenity=restaurant"%string "food"%string in
  let publicTransit := fetch "public_transport"%string "public transit"%string in
  let interest := fetch "tourism"%string "interest"%string in
  let comfort := fetch "leisure"%string "comfort"%string in
  match promise_all [resturants; publicTransit; interest; comfort] with
  | Some fetchedEssentials => reduce_concat fetchedEssentials
  | None => None
  end.

(* ------------------------------------------------------------------ *)
(** ** Loading src/model/db.js

    [getClosestSidewalk] and [getSidewalksInRadius] are reached through
    [require('../model/db')] (as in [src/route/score.js] and in the test at
    the end of [db.js]).  Requiring the module runs its top level first:
<<
  const db = require("better-sqlite3")('./database/walkspan.sqlite', {readonly: true});
  const db2 = require("sqlite3")('./database/walkability.sqlite', {readonly:true});
>>
    [require("better-sqlite3")] is better-sqlite3's [Database] constructor,
    a function that may be called without [new].  [require("sqlite3")] is
    node-sqlite3's module object ([{ Database, Statement, Backup, verbose,
    ... }]), which is not a function: calling it throws
    [TypeError: require(...) is not a function].  The exception leaves
    [require] before [module.exports] is assigned, and node drops the module
    from its cache, so every later [require] runs line 8 again. *)

(** The errors a statement of this code can throw. *)
Inductive JsError := TypeError.

(** A JavaScript computation completes with a value or throws. *)
Inductive js_result (A : Type) : Type :=
| Completed : A -> js_result A
| Threw : JsError -> js_result A.
Arguments Completed {A} _.
Arguments Threw {A} _.

Definition js_bind {A B : Type} (r : js_result A) (k : A -> js_result B)
    : js_result B :=
  match r with
  | Completed v => k v
  | Threw e => Threw e
  end.

(** What [require(name)] hands back, as far as calling it goes. *)
Inductive ModuleExport := FunctionExport | ObjectExport.

Definition better_sqlite3 : ModuleExport := FunctionExport.
Definition sqlite3 : ModuleExport := ObjectExport.

(** [require(name)(path, options)]: a function opens the database file
    (a handle is modelled by the rows of the file's table); any other value
    throws a [TypeError]. *)
Definition call_export {A : Type} (e : ModuleExport) (opened : A) : js_result A :=
  match e with
  | FunctionExport => Completed opened
  | ObjectExport => Threw TypeError
  end.

(** [module.exports] of [db.js]. *)
Record DbModule := {
  exports_getClosestSidewalk : R -> R -> option Row;
  exports_getSidewalksInRadius : R -> R -> R -> option (list Row)
}.

(** The top level of [db.js] (lines 7 and 8, then the two function
    declarations and the export).  [walkspan_sqlite] and
    [walkability_sqlite] are the tables in the two database files. *)
Definition load_db (walkspan_sqlite : list WalkspanRow)
    (walkability_sqlite : list BronxRow) : js_result DbModule :=
  js_bind (call_export better_sqlite3 walkspan_sqlite) (fun db =>
  js_bind (call_export sqlite3 walkability_sqlite) (fun db2 =>
  Completed {| exports_getClosestSidewalk := getClosestSidewalk db db2;
               exports_getSidewalksInRadius := getSidewalksInRadius db db2 |})).

(** [require('../model/db').getClosestSidewalk(latitude, longitude)]. *)
Definition require_getClosestSidewalk (walkspan_sqlite : list WalkspanRow)
    (walkability_sqlite : list BronxRow) (latitude longitude : R)
    : js_result (option Row) :=
  js_bind (load_db walkspan_sqlite walkability_sqlite) (fun m =>
  Completed (exports_getClosestSidewalk m latitude longitude)).

(** [require('../model/db').getSidewalksInRadius(latitude, longitude, range)]. *)
Definition require_getSidewalksInRadius (walkspan_sqlite : list WalkspanRow)
    (walkability_sqlite : list BronxRow) (latitude longitude range : R)
    : js_result (option (list Row)) :=
  js_bind (load_db walkspan_sqlite walkability_sqlite) (fun m =>
  Completed (exports_getSidewalksInRadius m latitude longitude range)).

(* ------------------------------------------------------------------ *)
(** ** getBoundingBoxFromCoordinatesAndRange in JavaScript numbers

    The definition of [getBoundingBoxFromCoordinatesAndRange] above computes
    in exact real arithmetic.  JavaScript computes in IEEE 754 binary64: each
    operation rounds its exact result to a double, and each literal is the
    double nearest to it.  Below, the same code is written over an arithmetic
    of numbers [N], given by its four operations and the values of the
    literals, and instantiated twice: with Rocq's primitive binary64 floats
    (the arithmetic of JavaScript numbers, computable), and with real
    numbers whose every operation is followed by a rounding function [rnd].

    [Math.cos] is implementation-approximated (ECMAScript, Math.cos); the
    standard only fixes some values, e.g. [Math.cos(+0) = 1].  The code is
    therefore modelled up to that call: the function returns the argument
    it passes to [Math.cos] and the rest of its computation as a function of
    the value [Math.cos] returns. *)

Record NumberOps (N : Type) := {
  num_add : N -> N -> N;
  num_sub : N -> N -> N;
  num_mul : N -> N -> N;
  num_div : N -> N -> N;
  Math_PI : N;
  lit_1609_344 : N;
  lit_180 : N;
  lit_110_574235 : N;
  lit_110_572833 : N;
  lit_1000_0 : N
}.
Arguments num_add {N} _ _ _.
Arguments num_sub {N} _ _ _.
Arguments num_mul {N} _ _ _.
Arguments num_div {N} _ _ _.
Arguments Math_PI {N} _.
Arguments lit_1609_344 {N} _.
Arguments lit_180 {N} _.
Arguments lit_110_574235 {N} _.
Arguments lit_110_572833 {N} _.
Arguments lit_1000_0 {N} _.

Record Box (N : Type) := {
  box_topLat : N;
  box_bottomLat : N;
  box_leftLng : N;
  box_rightLng : N
}.
Arguments box_topLat {N} _.
Arguments box_bottomLat {N} _.
Arguments box_leftLng {N} _.
Arguments box_rightLng {N} _.

Section JsNumbers.
Context {N : Type} (o : NumberOps N).

Local Infix "+" := (num_add o).
Local Infix "-" := (num_sub o).
Local Infix "*" := (num_mul o).
Local Infix "/" := (num_div o).

(** Line by line as in [src/lib/geocoder.js] (with [latitude] a number,
    [Number(latitude)] is [latitude]). *)
Definition getBoundingBoxFromCoordinatesAndRange_js
    (latitude longitude range : N) : N * (N -> Box N) :=
  let pDistanceInMeters := range * lit_1609_344 o in
  let latRadian := latitude * Math_PI o / lit_180 o in
  (latRadian,
   fun cos_latRadian =>
     let degLatKm := lit_110_574235 o in
     let degLongKm := lit_110_572833 o * cos_latRadian in
     let deltaLat := pDistanceInMeters / lit_1000_0 o / degLatKm in
     let deltaLong := pDistanceInMeters / lit_1000_0 o / degLongKm in
     {| box_topLat := latitude + deltaLat;
        box_bottomLat := latitude - deltaLat;
        box_leftLng := longitude - deltaLong;
        box_rightLng := longitude + deltaLong |}).
End JsNumbers.

(** JavaScript numbers: Rocq's primitive floats are IEEE 754 binary64 with
    round-to-nearest-even, and a decimal literal denotes the double nearest
    to it, as in JavaScript. *)
Module Binary64.
Import PrimFloat.
Local Open Scope float_scope.
#[warnings="-inexact-float"]
Definition double_ops : NumberOps float := {|
  num_add := add;
  num_sub := sub;
  num_mul := mul;
  num_div := div;
  Math_PI := 3.141592653589793;
  lit_1609_344 := 1609.344;
  lit_180 := 180;
  lit_110_574235 := 110.574235;
  lit_110_572833 := 110.572833;
  lit_1000_0 := 1000.0
|}.
End Binary64.

(** Real numbers rounded by [rnd] after every operation; a literal is the
    rounding of its exact value, and [Math.PI] the rounding of [PI].  With
    [rnd] the binary64 rounding to nearest (without an upper exponent
    bound), this agrees with JavaScript on every computation that neither
    overflows nor divides by zero. *)
Definition rounded_ops (rnd : R -> R) : NumberOps R := {|
  num_add := fun x y => rnd (x + y);
  num_sub := fun x y => rnd (x - y);
  num_mul := fun x y => rnd (x * y);
  num_div := fun x y => rnd (x / y);
  Math_PI := rnd PI;
  lit_1609_344 := rnd 1609.344;
  lit_180 := rnd 180;
  lit_110_574235 := rnd 110.574235;
  lit_110_572833 := rnd 110.572833;
  lit_1000_0 := rnd 1000.0
|}.

(** What the theorems below assume of [rnd]: it is monotone, zero is a
    double, and the error of a rounding is at most [2^-53] of the result
    plus [2^-1075].  Binary64 rounding to nearest has these properties: in
    the normal range the error is at most half an ulp, i.e. [2^-53] times
    the leading power of two of the result, and among subnormals it is at
    most half of the least subnormal [2^-1074]. *)
Record binary64_rounding (rnd : R -> R) : Prop := {
  rnd_monotone : forall x y, x <= y -> rnd x <= rnd y;
  rnd_zero : rnd 0 = 0;
  rnd_error : forall x, Rabs (rnd x - x) <= / 2 ^ 53 * Rabs (rnd x) + / 2 ^ 1075
}.


(* ================================================================== *)
(** * Properties *)

(* ------------------------------------------------------------------ *)
(** ** Claims about getBoundingBoxFromCoordinatesAndRange *)

(** C3: the box is [lat ± deltaLat] by [lon ± deltaLng], with
    [deltaLat = (r * 1609.344 / 1000) / 110.574235] and
    [deltaLng = (r * 1609.344 / 1000) / (110.572833 * cos(lat * π / 180))]. *)
Theorem bounding_box_formula (latitude longitude range : R) :
  let deltaLat := range * 1609.344 / 1000 / 110.574235 in
  let deltaLng :=
    range * 1609.344 / 1000 / (110.572833 * cos (latitude * PI / 180)) in
  getBoundingBoxFromCoordinatesAndRange latitude longitude range =
  {| topLat := latitude + deltaLat;
     bottomLat := latitude - deltaLat;
     leftLng := longitude - deltaLng;
     rightLng := longitude + deltaLng |}.
Proof.
  assert (E : 1000.0 = 1000) by lra.
  unfold getBoundingBoxFromCoordinatesAndRange; cbv zeta. now rewrite E.
Qed.

(* ------------------------------------------------------------------ *)
(** ** A rounding function with the assumed properties *)

(** Rounding to the nearest multiple of [2^-1074], the least subnormal
    double (ties upward): binary64's rounding in its subnormal range,
    extended to all reals. *)
Definition grid_rounding (x : R) : R :=
  IZR (Int_part (x * 2 ^ 1074 + / 2)) / 2 ^ 1074.

Lemma Int_part_monotone (x y : R) : x <= y -> IZR (Int_part x) <= IZR (Int_part y).
Proof.
  intros Hxy. destruct (base_Int_part x) as [Hx _].
  destruct (base_Int_part y) as [_ Hy].
  apply IZR_le.
  assert (IZR (Int_part x) < IZR (Int_part y) + 1) by lra.
  rewrite <- plus_IZR in H. apply lt_IZR in H. lia.
Qed.

Lemma grid_rounding_binary64 : binary64_rounding grid_rounding.
Proof.
  assert (Hs : 0 < 2 ^ 1074) by (apply pow_lt; lra).
  set (s := 2 ^ 1074) in *.
  assert (Hs2 : 2 ^ 1075 = 2 * s) by reflexivity.
  assert (Heps : 0 < / 2 ^ 53) by (apply Rinv_0_lt_compat, pow_lt; lra).
  split.
  - intros x y Hxy. unfold grid_rounding. fold s.
    apply Rmult_le_compat_r; [left; now apply Rinv_0_lt_compat |].
    apply Int_part_monotone. nra.
  - unfold grid_rounding. fold s.
    rewrite <- (Int_part_spec (0 * s + / 2) 0); [unfold Rdiv; ring | lra].
  - intros x. unfold grid_rounding. fold s. rewrite Hs2.
    destruct (base_Int_part (x * s + / 2)) as [H1 H2].
    set (n := IZR (Int_part (x * s + / 2))) in *.
    assert (E : n / s - x = (n - x * s) / s) by (field; lra).
    assert (B : Rabs (n - x * s) <= / 2) by (apply Rabs_le; lra).
    rewrite E. unfold Rdiv. rewrite Rabs_mult, (Rabs_pos_eq (/ s))
      by (left; now apply Rinv_0_lt_compat).
    rewrite Rinv_mult.
    pose proof (Rabs_pos (n * / s)).
    assert (Rabs (n - x * s) * / s <= / 2 * / s).
    { apply Rmult_le_compat_r; [left; now apply Rinv_0_lt_compat | exact B]. }
    assert (0 <= / 2 ^ 53 * Rabs (n * / s)) by (apply Rmult_le_pos; lra).
    lra.
Qed.

(** Integers are left unchanged. *)
Lemma grid_rounding_IZR (n : Z) : grid_rounding (IZR n) = IZR n.
Proof.
  unfold grid_rounding.
  assert (Hs : 0 < 2 ^ 1074) by (apply pow_lt; lra).
  rewrite <- (Int_part_spec (IZR n * 2 ^ 1074 + / 2) (n * 2 ^ 1074)).
  - rewrite mult_IZR, pow_IZR. simpl Z.of_nat. field. lra.
  - rewrite mult_IZR, pow_IZR. simpl Z.of_nat. lra.
Qed.

(* ------------------------------------------------------------------ *)
(** ** The bounding box in rounded arithmetic *)

(** In exact arithmetic (rounding by the identity) and with [Math.cos]
    returning [cos], the code computes the box of
    [getBoundingBoxFromCoordinatesAndRange]. *)
Lemma bounding_box_js_exact (latitude longitude range : R) :
  let '(latRadian, box_of_cos) :=
    getBoundingBoxFromCoordinatesAndRange_js (rounded_ops (fun x => x))
      latitude longitude range in
  let box := getBoundingBoxFromCoordinatesAndRange latitude longitude range in
  box_of_cos (cos latRadian) =
  {| box_topLat := topLat box; box_bottomLat := bottomLat box;
     box_leftLng := leftLng box; box_rightLng := rightLng box |}.
Proof. reflexivity. Qed.

Section Rounding.
Variable rnd : R -> R.
Hypothesis Hrnd : binary64_rounding rnd.

Lemma rnd_nonneg (x : R) : 0 <= x -> 0 <= rnd x.
Proof. intros H. rewrite <- (rnd_zero _ Hrnd). now apply (rnd_monotone _ Hrnd). Qed.

Lemma rnd_nonpos (x : R) : x <= 0 -> rnd x <= 0.
Proof. intros H. rewrite <- (rnd_zero _ Hrnd). now apply (rnd_monotone _ Hrnd). Qed.

End Rounding.

Lemma div_nonneg (x y : R) : 0 <= x -> 0 <= y -> 0 <= x / y.
Proof.
  intros Hx Hy. destruct (Req_dec y 0) as [-> | Hy0].
  - unfold Rdiv. rewrite Rinv_0. lra.
  - unfold Rdiv. apply Rmult_le_pos; [lra |].
    left. apply Rinv_0_lt_compat. lra.
Qed.

Lemma div_nonpos (x y : R) : x <= 0 -> 0 <= y -> x / y <= 0.
Proof.
  intros Hx Hy. unfold Rdiv.
  replace (x * / y) with (- ((- x) / y)) by (unfold Rdiv; ring).
  pose proof (div_nonneg (- x) y ltac:(lra) Hy). lra.
Qed.

(** The half-widths [deltaLat] and [deltaLong] have the sign of the range,
    whatever positive value [Math.cos] returns. *)
Lemma rounded_deltas_sign (rnd : R -> R) (Hrnd : binary64_rounding rnd)
    (range c : R) (Hc : 0 < c) :
  let pDistanceInMeters := rnd (range * rnd 1609.344) in
  let deltaLat := rnd (rnd (pDistanceInMeters / rnd 1000.0) / rnd 110.574235) in
  let deltaLong :=
    rnd (rnd (pDistanceInMeters / rnd 1000.0) / rnd (rnd 110.572833 * c)) in
  (0 < range -> 0 <= deltaLat /\ 0 <= deltaLong) /\
  (range < 0 -> deltaLat <= 0 /\ deltaLong <= 0).
Proof.
  intros pD dLat dLong.
  assert (K1 : 0 <= rnd 1609.344) by (apply (rnd_nonneg rnd Hrnd); lra).
  assert (K2 : 0 <= rnd 1000.0) by (apply (rnd_nonneg rnd Hrnd); lra).
  assert (K3 : 0 <= rnd 110.574235) by (apply (rnd_nonneg rnd Hrnd); lra).
  assert (K4 : 0 <= rnd (rnd 110.572833 * c)).
  { apply (rnd_nonneg rnd Hrnd).
    assert (0 <= rnd 110.572833) by (apply (rnd_nonneg rnd Hrnd); lra). nra. }
  split; intros Hr.
  - assert (P : 0 <= pD) by (apply (rnd_nonneg rnd Hrnd); nra).
    assert (Q : 0 <= rnd (pD / rnd 1000.0))
      by (apply (rnd_nonneg rnd Hrnd), div_nonneg; assumption).
    split; apply (rnd_nonneg rnd Hrnd), div_nonneg; assumption.
  - assert (P : pD <= 0) by (apply (rnd_nonpos rnd Hrnd); nra).
    assert (Q : rnd (pD / rnd 1000.0) <= 0)
      by (apply (rnd_nonpos rnd Hrnd), div_nonpos; assumption).
    split; apply (rnd_nonpos rnd Hrnd), div_nonpos; assumption.
Qed.

(** C6, amended: computed in doubles, for [r > 0] and a positive value of
    [Math.cos(latRadian)] (the case [|lat| < 90]), the box satisfies
    [bottomLat <= topLat] and [leftLng <= rightLng]; the bounds may be
    equal when the range is too small to move the coordinate. *)
Theorem bounding_box_ordered_in_doubles (rnd : R -> R)
    (Hrnd : binary64_rounding rnd)
    (latitude longitude range cos_latRadian : R)
    (Hlat : rnd latitude = latitude) (Hlon : rnd longitude = longitude)
    (Hrange : 0 < range) (Hcos : 0 < cos_latRadian) :
  let box :=
    snd (getBoundingBoxFromCoordinatesAndRange_js (rounded_ops rnd)
           latitude longitude range) cos_latRadian in
  box_bottomLat box <= box_topLat box /\ box_leftLng box <= box_rightLng box.
Proof.
  destruct (rounded_deltas_sign rnd Hrnd range cos_latRadian Hcos) as [Hpos _].
  destruct (Hpos Hrange) as [Hdl Hdg]. clear Hpos.
  simpl. split.
  - apply Rle_trans with latitude.
    + rewrite <- Hlat at 2. apply (rnd_monotone _ Hrnd). lra.
    + rewrite <- Hlat at 1. apply (rnd_monotone _ Hrnd). lra.
  - apply Rle_trans with longitude.
    + rewrite <- Hlon at 2. apply (rnd_monotone _ Hrnd). lra.
    + rewrite <- Hlon at 1. apply (rnd_monotone _ Hrnd). lra.
Qed.

(** C9, amended: computed in doubles, for [r < 0] and a positive value of
    [Math.cos(latRadian)], the box is inverted or flat:
    [topLat <= bottomLat] and [rightLng <= leftLng]. *)
Theorem bounding_box_inverted_in_doubles (rnd : R -> R)
    (Hrnd : binary64_rounding rnd)
    (latitude longitude range cos_latRadian : R)
    (Hlat : rnd latitude = latitude) (Hlon : rnd longitude = longitude)
    (Hrange : range < 0) (Hcos : 0 < cos_latRadian) :
  let box :=
    snd (getBoundingBoxFromCoordinatesAndRange_js (rounded_ops rnd)
           latitude longitude range) cos_latRadian in
  box_topLat box <= box_bottomLat box /\ box_rightLng box <= box_leftLng box.
Proof.
  destruct (rounded_deltas_sign rnd Hrnd range cos_latRadian Hcos) as [_ Hneg].
  destruct (Hneg Hrange) as [Hdl Hdg]. clear Hneg.
  simpl. split.
  - apply Rle_trans with latitude.
    + rewrite <- Hlat at 2. apply (rnd_monotone _ Hrnd). lra.
    + rewrite <- Hlat at 1. apply (rnd_monotone _ Hrnd). lra.
  - apply Rle_trans with longitude.
    + rewrite <- Hlon at 2. apply (rnd_monotone _ Hrnd). lra.
    + rewrite <- Hlon at 1. apply (rnd_monotone _ Hrnd). lra.
Qed.

(** The two roundings of [c + d] and [c - d] are off the symmetric values
    by at most their rounding errors. *)
Lemma rounded_symmetry_error (rnd : R -> R) (Hrnd : binary64_rounding rnd)
    (c d : R) :
  Rabs ((rnd (c + d) - c) - (c - rnd (c - d)))
  <= / 2 ^ 53 * (Rabs (rnd (c + d)) + Rabs (rnd (c - d))) + 2 * / 2 ^ 1075.
Proof.
  pose proof (rnd_error _ Hrnd (c + d)) as E1.
  pose proof (rnd_error _ Hrnd (c - d)) as E2.
  replace ((rnd (c + d) - c) - (c - rnd (c - d)))
    with ((rnd (c + d) - (c + d)) + (rnd (c - d) - (c - d))) by ring.
  pose proof (Rabs_triang (rnd (c + d) - (c + d)) (rnd (c - d) - (c - d))).
  rewrite Rmult_plus_distr_l. lra.
Qed.

(** C10, amended: computed in doubles, the box is symmetric about its
    centre up to the rounding of the two additions:
    [(topLat - lat) - (lat - bottomLat)] is at most
    [2^-53 (|topLat| + |bottomLat|) + 2^-1074] in absolute value, and the
    same holds for the longitudes; the two differences need not be
    equal. *)
Theorem bounding_box_symmetric_up_to_rounding (rnd : R -> R)
    (Hrnd : binary64_rounding rnd)
    (latitude longitude range cos_latRadian : R) :
  let box :=
    snd (getBoundingBoxFromCoordinatesAndRange_js (rounded_ops rnd)
           latitude longitude range) cos_latRadian in
  Rabs ((box_topLat box - latitude) - (latitude - box_bottomLat box))
    <= / 2 ^ 53 * (Rabs (box_topLat box) + Rabs (box_bottomLat box))
       + 2 * / 2 ^ 1075 /\
  Rabs ((box_rightLng box - longitude) - (longitude - box_leftLng box))
    <= / 2 ^ 53 * (Rabs (box_rightLng box) + Rabs (box_leftLng box))
       + 2 * / 2 ^ 1075.
Proof.
  simpl. split; apply rounded_symmetry_error; exact Hrnd.
Qed.

(* ------------------------------------------------------------------ *)
(** ** The bounding box in binary64: concrete runs

    At latitude [0] the code calls [Math.cos(0 * Math.PI / 180)], i.e.
    [Math.cos(+0)], which ECMAScript fixes to [1]; the runs below pass [1]
    for it and are otherwise exact binary64 computations. *)
Module Binary64Runs.
Import PrimFloat.
Local Open Scope float_scope.

(** C6 fails for the least positive double [5e-324] (about
    [4.94e-324]) at [(0, 0)]: the range is positive, yet the box is a
    single point, [topLat = bottomLat] and [leftLng = rightLng]. *)
#[warnings="-inexact-float"]
Lemma bounding_box_flat_for_tiny_range :
  let run := getBoundingBoxFromCoordinatesAndRange_js Binary64.double_ops
               0 0 5e-324 in
  let box := snd run 1 in
  (0 <? 5e-324) = true /\ fst run = 0 /\
  box_topLat box = box_bottomLat box /\ box_leftLng box = box_rightLng box.
Proof. vm_compute. repeat split. Qed.

(** C9 fails for the range [-5e-324] at [(0, 0)]: the range is negative,
    yet [topLat = bottomLat] and [rightLng = leftLng] (all four are [0]),
    so the box is not inverted and the query point lies in it. *)
#[warnings="-inexact-float"]
Lemma bounding_box_not_inverted_for_tiny_range :
  let run := getBoundingBoxFromCoordinatesAndRange_js Binary64.double_ops
               0 0 (-5e-324) in
  let box := snd run 1 in
  (-5e-324 <? 0) = true /\ fst run = 0 /\
  box_topLat box = 0 /\ box_bottomLat box = 0 /\
  box_leftLng box = 0 /\ box_rightLng box = 0.
Proof. vm_compute. repeat split. Qed.

(** C10 fails at [(0, 1)] with range [0.25]: computed in doubles,
    [rightLng - 1] is [0.0036386514579038742] and [1 - leftLng] is
    [0.0036386514579037632]. *)
#[warnings="-inexact-float"]
Lemma bounding_box_asymmetric_longitudes :
  let run := getBoundingBoxFromCoordinatesAndRange_js Binary64.double_ops
               0 1 0.25 in
  let box := snd run 1 in
  fst run = 0 /\
  box_rightLng box - 1 = 0.0036386514579038742 /\
  1 - box_leftLng box = 0.0036386514579037632 /\
  (box_rightLng box - 1 =? 1 - box_leftLng box) = false.
Proof. vm_compute. repeat split. Qed.
End Binary64Runs.

(* ------------------------------------------------------------------ *)
(** ** Requiring src/model/db.js *)

(** Loading [db.js] throws a [TypeError] at line 8, whatever the two
    database files hold: its exports are never defined. *)
Lemma load_db_throws walkspan_sqlite walkability_sqlite :
  load_db walkspan_sqlite walkability_sqlite = Threw TypeError.
Proof. reflexivity. Qed.

(** C1: no call of [getClosestSidewalk] through [require('../model/db')]
    returns a segment: each one throws the [TypeError] of [db.js] line 8,
    for every table contents and every query point. *)
Theorem getClosestSidewalk_require_throws walkspan_sqlite walkability_sqlite
    latitude longitude :
  require_getClosestSidewalk walkspan_sqlite walkability_sqlite
    latitude longitude = Threw TypeError.
Proof. unfold require_getClosestSidewalk. now rewrite load_db_throws. Qed.

(** C2: with an empty [Walkspan] table, [getClosestSidewalk] reached through
    [require] throws a [TypeError], not a [NotFound] failure; and the body
    of the function, were the module loaded, would return [undefined]
    ([None]) normally rather than fail. *)
Theorem closest_sidewalk_empty_store_no_not_found walkability_sqlite
    latitude longitude :
  require_getClosestSidewalk [] walkability_sqlite latitude longitude
    = Threw TypeError /\
  getClosestSidewalk_body [] walkability_sqlite latitude longitude
    = Return None.
Proof.
  split.
  - unfold require_getClosestSidewalk. now rewrite load_db_throws.
  - reflexivity.
Qed.

(** C4: no call of [getSidewalksInRadius] through [require] returns a
    result set: each one throws the [TypeError] of [db.js] line 8. *)
Theorem getSidewalksInRadius_require_throws walkspan_sqlite walkability_sqlite
    latitude longitude range :
  require_getSidewalksInRadius walkspan_sqlite walkability_sqlite
    latitude longitude range = Threw TypeError.
Proof. unfold require_getSidewalksInRadius. now rewrite load_db_throws. Qed.

(** C5: for two ranges [r1] and [r2], neither call of
    [getSidewalksInRadius] returns a result set to compare. *)
Theorem sidewalks_in_radius_no_result_sets walkspan_sqlite walkability_sqlite
    latitude longitude r1 r2 :
  require_getSidewalksInRadius walkspan_sqlite walkability_sqlite
    latitude longitude r1 = Threw TypeError /\
  require_getSidewalksInRadius walkspan_sqlite walkability_sqlite
    latitude longitude r2 = Threw TypeError.
Proof. unfold require_getSidewalksInRadius. now rewrite load_db_throws. Qed.

(** C8: the module's top level throws before [getClosestSidewalk] is
    defined, so no call picks the result of either source: the outcome is
    the same [TypeError] for all contents of both tables. *)
Theorem closest_sidewalk_no_source_picked walkspan_sqlite walkability_sqlite
    walkspan_sqlite' walkability_sqlite' latitude longitude :
  require_getClosestSidewalk walkspan_sqlite walkability_sqlite
    latitude longitude = Threw TypeError /\
  require_getClosestSidewalk walkspan_sqlite' walkability_sqlite'
    latitude longitude = Threw TypeError.
Proof. unfold require_getClosestSidewalk. now rewrite !load_db_throws. Qed.

(* ------------------------------------------------------------------ *)
(** ** Degenerate segments *)

Lemma distanceToLineSegment_point (ax ay px py : R) :
  distanceToLineSegment ax ay ax ay px py =
  sqrt ((px - ax) * (px - ax) + (py - ay) * (py - ay)).
Proof.
  unfold distanceToLineSegment, distanceSquaredToLineSegment,
    distanceSquaredToLineSegment2; cbv zeta.
  replace (ax - ax) with 0 by ring. replace (ay - ay) with 0 by ring.
  replace (0 * 0 + 0 * 0) with 0 by ring.
  destruct (Req_dec_T 0 0) as [_ | H]; [| contradiction].
  f_equal. ring.
Qed.

(** C7: the ranking distance of a row whose start and end coincide is the
    Euclidean distance from the query point to that coordinate. *)
Theorem degenerate_segment_distance latitude longitude (w : WalkspanRow)
    (Hlat : sidewalk_starting_latitude w = sidewalk_ending_latitude w)
    (Hlng : sidewalk_starting_longitude w = sidewalk_ending_longitude w) :
  walkspan_distance latitude longitude w =
  sqrt ((latitude - sidewalk_starting_latitude w)
          * (latitude - sidewalk_starting_latitude w)
        + (longitude - sidewalk_starting_longitude w)
          * (longitude - sidewalk_starting_longitude w)).
Proof.
  unfold walkspan_distance. rewrite <- Hlat, <- Hlng.
  apply distanceToLineSegment_point.
Qed.

(* ------------------------------------------------------------------ *)
(** ** Witnesses *)

(** A zero-length segment at [(0, 0)]. *)
Definition degenerate_row : WalkspanRow :=
  {| natural_beauty_score := 1; manmade_beauty_score := 1;
     comfort_score := 1; interest_score := 1; safety_score := 1;
     access_score := 1; amenities_score := 1;
     sidewalk_starting_longitude := 0;
     sidewalk_ending_longitude := 0;
     sidewalk_starting_latitude := 0;
     sidewalk_ending_latitude := 0 |}.


(** The scenario of the spec: a zero-length segment at distance 5 from the
    query point is ranked at distance 5. *)
Lemma degenerate_segment_distance_witness :
  walkspan_distance 3 4 degenerate_row = 5.
Proof.
  rewrite (degenerate_segment_distance 3 4 degenerate_row eq_refl eq_refl).
  simpl. replace ((3 - 0) * (3 - 0) + (4 - 0) * (4 - 0)) with (5 * 5) by ring.
  apply sqrt_square. lra.
Defined.

(* ------------------------------------------------------------------ *)
(** ** Witnesses for the rounded bounding box *)

Lemma bounding_box_ordered_in_doubles_witness :
  binary64_rounding grid_rounding /\ grid_rounding 0 = 0 /\
  grid_rounding 1 = 1 /\ 0 < 0.25 /\ 0 < 1 /\
  let box :=
    snd (getBoundingBoxFromCoordinatesAndRange_js (rounded_ops grid_rounding)
           0 1 0.25) 1 in
  box_bottomLat box <= box_topLat box /\ box_leftLng box <= box_rightLng box.
Proof.
  pose proof grid_rounding_binary64 as Hrnd.
  assert (H0 : grid_rounding 0 = 0) by exact (grid_rounding_IZR 0).
  assert (H1 : grid_rounding 1 = 1) by exact (grid_rounding_IZR 1).
  assert (Hr : 0 < 0.25) by lra.
  assert (Hc : 0 < 1) by lra.
  split; [exact Hrnd | split; [exact H0 | split; [exact H1 |
    split; [exact Hr | split; [exact Hc |]]]]].
  exact (bounding_box_ordered_in_doubles grid_rounding Hrnd 0 1 0.25 1
           H0 H1 Hr Hc).
Defined.

Lemma bounding_box_inverted_in_doubles_witness :
  binary64_rounding grid_rounding /\ grid_rounding 0 = 0 /\
  grid_rounding 1 = 1 /\ -0.25 < 0 /\ 0 < 1 /\
  let box :=
    snd (getBoundingBoxFromCoordinatesAndRange_js (rounded_ops grid_rounding)
           0 1 (-0.25)) 1 in
  box_topLat box <= box_bottomLat box /\ box_rightLng box <= box_leftLng box.
Proof.
  pose proof grid_rounding_binary64 as Hrnd.
  assert (H0 : grid_rounding 0 = 0) by exact (grid_rounding_IZR 0).
  assert (H1 : grid_rounding 1 = 1) by exact (grid_rounding_IZR 1).
  assert (Hr : -0.25 < 0) by lra.
  assert (Hc : 0 < 1) by lra.
  split; [exact Hrnd | split; [exact H0 | split; [exact H1 |
    split; [exact Hr | split; [exact Hc |]]]]].
  exact (bounding_box_inverted_in_doubles grid_rounding Hrnd 0 1 (-0.25) 1
           H0 H1 Hr Hc).
Defined.

Lemma bounding_box_symmetric_up_to_rounding_witness :
  binary64_rounding grid_rounding /\
  let box :=
    snd (getBoundingBoxFromCoordinatesAndRange_js (rounded_ops grid_rounding)
           0 1 0.25) 1 in
  Rabs ((box_rightLng box - 1) - (1 - box_leftLng box))
    <= / 2 ^ 53 * (Rabs (box_rightLng box) + Rabs (box_leftLng box))
       + 2 * / 2 ^ 1075.
Proof.
  pose proof grid_rounding_binary64 as Hrnd.
  split; [exact Hrnd |].
  exact (proj2 (bounding_box_symmetric_up_to_rounding grid_rounding Hrnd
                  0 1 0.25 1)).
Defined.

(* ================================================================== *)
(** * Further properties of the code *)

(* ------------------------------------------------------------------ *)
(** ** sortBy: a sorted permutation *)

Section SortByOrder.
Context {A : Type} (f : A -> R).

Lemma insert_by_perm (x : A) (l : list A) :
  Permutation (insert_by f x l) (x :: l).
Proof.
  induction l as [| y l IH]; simpl; [reflexivity |].
  destruct (Rle_dec (f x) (f y)); [reflexivity |].
  rewrite IH. apply perm_swap.
Qed.

(** [sortBy] returns its input rearranged: no element is lost, duplicated
    or invented. *)
Theorem sortBy_permutation (l : list A) : Permutation (sortBy f l) l.
Proof.
  induction l as [| a l IH]; simpl; [reflexivity |].
  rewrite insert_by_perm. now apply perm_skip.
Qed.

Lemma insert_by_sorted (x : A) (l : list A) :
  StronglySorted (fun a b => f a <= f b) l ->
  StronglySorted (fun a b => f a <= f b) (insert_by f x l).
Proof.
  induction l as [| y l IH]; simpl; intros Hs.
  - repeat constructor.
  - inversion Hs as [| ? ? Hl Hy]; subst.
    destruct (Rle_dec (f x) (f y)) as [Hle | Hgt].
    + constructor; [exact Hs |]. constructor; [exact Hle |].
      rewrite Forall_forall in Hy |- *. intros z Hz. specialize (Hy z Hz). lra.
    + constructor; [now apply IH |].
      rewrite Forall_forall in Hy |- *. intros z Hz.
      apply (Permutation_in _ (insert_by_perm x l)) in Hz as [<- | Hz]; [lra |].
      auto.
Qed.

(** [sortBy] orders its output by non-decreasing criterion. *)
Theorem sortBy_sorted (l : list A) :
  StronglySorted (fun a b => f a <= f b) (sortBy f l).
Proof.
  induction l as [| a l IH]; simpl; [constructor | now apply insert_by_sorted].
Qed.

End SortByOrder.

Lemma StronglySorted_app_rel {A : Type} (Rel : A -> A -> Prop) (l1 l2 : list A) :
  StronglySorted Rel (l1 ++ l2) ->
  forall x y, In x l1 -> In y l2 -> Rel x y.
Proof.
  induction l1 as [| a l1 IH]; simpl; [tauto |].
  intros Hs x y Hx Hy. inversion Hs as [| ? ? Hl Ha]; subst.
  destruct Hx as [<- | Hx].
  - rewrite Forall_forall in Ha. apply Ha, in_or_app. now right.
  - now apply IH.
Qed.

(* ------------------------------------------------------------------ *)
(** ** The LIMIT 8 pre-filter *)

(** A row the pre-filter leaves out is at least as far, by the endpoint
    Manhattan key, as every row it keeps. *)
Theorem sidewalkCandidates_nearest_by_key walkspan latitude longitude
    (w c : WalkspanRow)
    (Hw : In w walkspan)
    (Hout : ~ In w (sidewalkCandidates walkspan latitude longitude))
    (Hc : In c (sidewalkCandidates walkspan latitude longitude)) :
  walkspan_key latitude longitude c <= walkspan_key latitude longitude w.
Proof.
  set (key := walkspan_key latitude longitude) in *.
  unfold sidewalkCandidates, order_by_limit in *. fold key in Hout, Hc.
  pose proof (sortBy_sorted key walkspan) as Hs.
  rewrite <- (firstn_skipn 8 (sortBy key walkspan)) in Hs.
  apply (StronglySorted_app_rel _ _ _ Hs); [exact Hc |].
  assert (Hin : In w (sortBy key walkspan))
    by (apply (Permutation_in _ (Permutation_sym (sortBy_permutation key walkspan)));
        exact Hw).
  rewrite <- (firstn_skipn 8 (sortBy key walkspan)) in Hin.
  apply in_app_or in Hin as [Hin | Hin]; [contradiction | exact Hin].
Qed.

(** Every candidate is a row of the table, and when the table has at most
    8 rows every row is a candidate (the candidates are a rearrangement of
    the table). *)
Theorem sidewalkCandidates_small_table walkspan latitude longitude :
  incl (sidewalkCandidates walkspan latitude longitude) walkspan /\
  ((length walkspan <= 8)%nat ->
   Permutation (sidewalkCandidates walkspan latitude longitude) walkspan).
Proof.
  unfold sidewalkCandidates, order_by_limit. split.
  - intros x Hx.
    apply (Permutation_in _ (sortBy_permutation (walkspan_key latitude longitude) walkspan)).
    rewrite <- (firstn_skipn 8 (sortBy (walkspan_key latitude longitude) walkspan)).
    apply in_or_app. now left.
  - intros Hlen. rewrite firstn_all2.
    + apply sortBy_permutation.
    + rewrite (Permutation_length (sortBy_permutation _ walkspan)). lia.
Qed.

(* ------------------------------------------------------------------ *)
(** ** The Overpass query text *)

(** [s] without any occurrence of the character [c]. *)
Fixpoint remove_char (c : ascii) (s : string) : string :=
  match s with
  | EmptyString => EmptyString
  | String x s' =>
      if ascii_dec x c then remove_char c s' else String x (remove_char c s')
  end.

Lemma remove_char_app (c : ascii) (a b : string) :
  remove_char c (a ++ b) = (remove_char c a ++ remove_char c b)%string.
Proof.
  induction a as [| x a IH]; simpl; [reflexivity |].
  destruct (ascii_dec x c); simpl; now rewrite IH.
Qed.

Lemma split_char_not_nil (c : ascii) (s : string) : split_char c s <> [].
Proof.
  destruct s as [| x s]; simpl; [discriminate |].
  destruct (ascii_dec x c); [discriminate |].
  destruct (split_char c s); discriminate.
Qed.

Lemma join_empty_cons (x : ascii) (p : string) (ps : list string) :
  join "" (String x p :: ps) = String x (join "" (p :: ps)).
Proof. destruct ps; reflexivity. Qed.

(** [s.split(c).join('')] deletes every [c] from [s]. *)
Lemma join_split_char (c : ascii) (s : string) :
  join "" (split_char c s) = remove_char c s.
Proof.
  induction s as [| x s IH]; simpl; [reflexivity |].
  pose proof (split_char_not_nil c s) as Hne.
  destruct (ascii_dec x c).
  - destruct (split_char c s) as [| p ps]; [contradiction |]. exact IH.
  - destruct (split_char c s) as [| p ps]; [contradiction |].
    rewrite join_empty_cons. now rewrite IH.
Qed.

Lemma string_append_assoc (a b c : string) :
  ((a ++ b) ++ c)%string = (a ++ b ++ c)%string.
Proof. induction a as [| x a IH]; simpl; [reflexivity | now rewrite IH]. Qed.

(** Spaces and newlines removed. *)
Definition strip (s : string) : string :=
  remove_char "010"%char (remove_char " "%char s).

Example overpass_query_text_restaurants :
  overpass_query_text "amenity=restaurant" "40.7" "-74.0" "40.8" "-73.9"
  = "node[amenity=restaurant](40.7,-74.0,40.8,-73.9);out 20;"%string.
Proof. reflexivity. Qed.

(** [queryOverpassForTags] sends
    [node[TAG](bottomLat,leftLng,topLat,rightLng);out 20;]: the box in
    south, west, north, east order, with every space and newline removed
    from the tag and from the text of each coordinate. *)
Theorem queryOverpassForTags_query_shape number_to_string tag latitude longitude range :
  let box := getBoundingBoxFromCoordinatesAndRange latitude longitude range in
  queryOverpassForTags_query number_to_string tag latitude longitude range =
  ("node[" ++ strip tag ++ "](" ++ strip (number_to_string (bottomLat box))
   ++ "," ++ strip (number_to_string (leftLng box))
   ++ "," ++ strip (number_to_string (topLat box))
   ++ "," ++ strip (number_to_string (rightLng box)) ++ ");out 20;")%string.
Proof.
  intros box. unfold queryOverpassForTags_query, overpass_query_text,
    overpass_template, strip. fold box.
  rewrite !join_split_char, !remove_char_app, !string_append_assoc.
  reflexivity.
Qed.

(* ------------------------------------------------------------------ *)
(** ** getLifestyleEssentials *)

Lemma promise_all_rejected {A : Type} (ps : list (option A)) :
  In None ps -> promise_all ps = None.
Proof.
  induction ps as [| p ps IH]; simpl; [tauto |].
  intros [-> | Hin]; [reflexivity |].
  rewrite (IH Hin). now destruct p.
Qed.

(** When the four Overpass queries succeed, the essentials are the
    restaurants (category "food"), then the public-transport stops, then the
    tourism features ("interest"), then the leisure features ("comfort"),
    each in the order of its response, with [latitude = coordinates[1]] and
    [longitude = coordinates[0]]. *)
Theorem lifestyle_essentials_concat number_to_string overpass latitude longitude range
    (resturants publicTransit interest comfort : list Feature)
    (Hr : overpass (queryOverpassForTags_query number_to_string "amenity=restaurant"
                      latitude longitude range) = Some resturants)
    (Hp : overpass (queryOverpassForTags_query number_to_string "public_transport"
                      latitude longitude range) = Some publicTransit)
    (Hi : overpass (queryOverpassForTags_query number_to_string "tourism"
                      latitude longitude range) = Some interest)
    (Hc : overpass (queryOverpassForTags_query number_to_string "leisure"
                      latitude longitude range) = Some comfort) :
  getLifestyleEssentials number_to_string overpass latitude longitude range =
  Some (map (to_essential "food") resturants
        ++ map (to_essential "public transit") publicTransit
        ++ map (to_essential "interest") interest
        ++ map (to_essential "comfort") comfort).
Proof.
  unfold getLifestyleEssentials. rewrite Hr, Hp, Hi, Hc. simpl.
  now rewrite !app_assoc.
Qed.

(** One failed Overpass query makes the whole result fail: no partial list
    is returned. *)
Theorem lifestyle_essentials_all_or_nothing number_to_string overpass
    latitude longitude range
    (Hfail : exists tag,
       In tag ["amenity=restaurant"; "public_transport"; "tourism"; "leisure"]%string /\
       overpass (queryOverpassForTags_query number_to_string tag
                   latitude longitude range) = None) :
  getLifestyleEssentials number_to_string overpass latitude longitude range = None.
Proof.
  destruct Hfail as (tag & Htag & Hnone).
  unfold getLifestyleEssentials.
  rewrite promise_all_rejected; [reflexivity |].
  destruct Htag as [<- | [<- | [<- | [<- | []]]]]; rewrite Hnone; simpl; tauto.
Qed.

(* ------------------------------------------------------------------ *)
(** ** Witnesses for the further properties *)

(** A row near the point of the repository's test
    ([getClosestSidewalk(40.730610, -73.935242)]) with its own
    natural-beauty score. *)
Definition row_with_score (n : R) : WalkspanRow :=
  {| natural_beauty_score := n; manmade_beauty_score := 1;
     comfort_score := 1; interest_score := 1; safety_score := 3;
     access_score := 3; amenities_score := 1;
     sidewalk_starting_longitude := -73.9353;
     sidewalk_ending_longitude := -73.9350;
     sidewalk_starting_latitude := 40.7306;
     sidewalk_ending_latitude := 40.7310 |}.

(** Nine rows at the same place, in storage order. *)
Definition nine_rows : list WalkspanRow :=
  map row_with_score [1; 2; 3; 4; 5; 6; 7; 8; 9].

(** Rows that tie on the sort criterion keep their storage order. *)
Lemma sortBy_all_equal {A : Type} (f : A -> R) (k : R) (l : list A) :
  Forall (fun y => f y = k) l -> sortBy f l = l.
Proof.
  induction l as [| x l IH]; simpl; intros Hall; [reflexivity |].
  inversion Hall as [| ? ? Hx Hl]; subst.
  rewrite (IH Hl). destruct l as [| y l]; simpl; [reflexivity |].
  inversion Hl as [| ? ? Hy _]; subst.
  destruct (Rle_dec (f x) (f y)); [reflexivity | lra].
Qed.

Lemma nine_rows_candidates :
  sidewalkCandidates nine_rows 40.730610 (-73.935242) = firstn 8 nine_rows.
Proof.
  unfold sidewalkCandidates, order_by_limit.
  rewrite (sortBy_all_equal _ (walkspan_key 40.730610 (-73.935242) (row_with_score 1)));
    [reflexivity |].
  repeat constructor.
Qed.

Lemma sidewalkCandidates_nearest_by_key_witness :
  In (row_with_score 9) nine_rows /\
  ~ In (row_with_score 9) (sidewalkCandidates nine_rows 40.730610 (-73.935242)) /\
  In (row_with_score 1) (sidewalkCandidates nine_rows 40.730610 (-73.935242)) /\
  walkspan_key 40.730610 (-73.935242) (row_with_score 1)
    <= walkspan_key 40.730610 (-73.935242) (row_with_score 9).
Proof.
  assert (Hw : In (row_with_score 9) nine_rows) by (simpl; tauto).
  assert (Hout : ~ In (row_with_score 9)
                   (sidewalkCandidates nine_rows 40.730610 (-73.935242))).
  { rewrite nine_rows_candidates. simpl. intros H.
    repeat destruct H as [H | H]; try contradiction;
      injection H; intros; lra. }
  assert (Hc : In (row_with_score 1)
                 (sidewalkCandidates nine_rows 40.730610 (-73.935242)))
    by (rewrite nine_rows_candidates; simpl; tauto).
  split; [exact Hw | split; [exact Hout | split; [exact Hc |]]].
  exact (sidewalkCandidates_nearest_by_key nine_rows 40.730610 (-73.935242)
           (row_with_score 9) (row_with_score 1) Hw Hout Hc).
Defined.

(** A restaurant node as Overpass returns it: [[longitude, latitude]]. *)
Definition sample_feature : Feature :=
  {| feature_name := Some "Cafe"%string; feature_coordinates := [-73.9353; 40.7306] |}.

Lemma lifestyle_essentials_concat_witness :
  getLifestyleEssentials (fun _ => "0"%string) (fun _ => Some [sample_feature])
    40.7306 (-73.9353) 0.375 =
  Some (map (to_essential "food") [sample_feature]
        ++ map (to_essential "public transit") [sample_feature]
        ++ map (to_essential "interest") [sample_feature]
        ++ map (to_essential "comfort") [sample_feature]).
Proof.
  exact (lifestyle_essentials_concat (fun _ => "0"%string)
           (fun _ => Some [sample_feature]) 40.7306 (-73.9353) 0.375
           [sample_feature] [sample_feature] [sample_feature] [sample_feature]
           eq_refl eq_refl eq_refl eq_refl).
Defined.

(** An Overpass API that answers every query with [sample_feature] except
    the tourism query around [(40.7306, -73.9353)], which fails. *)
Definition overpass_tourism_down (query : string) : option (list Feature) :=
  if String.eqb query
       (queryOverpassForTags_query (fun _ => "0"%string) "tourism"
          40.7306 (-73.9353) 0.375)
  then None else Some [sample_feature].

(** Three of the four queries succeed and the tourism query fails: the
    whole result fails. *)
Lemma lifestyle_essentials_all_or_nothing_witness :
  overpass_tourism_down (queryOverpassForTags_query (fun _ => "0"%string)
    "amenity=restaurant" 40.7306 (-73.9353) 0.375) = Some [sample_feature] /\
  overpass_tourism_down (queryOverpassForTags_query (fun _ => "0"%string)
    "public_transport" 40.7306 (-73.9353) 0.375) = Some [sample_feature] /\
  overpass_tourism_down (queryOverpassForTags_query (fun _ => "0"%string)
    "leisure" 40.7306 (-73.9353) 0.375) = Some [sample_feature] /\
  getLifestyleEssentials (fun _ => "0"%string) overpass_tourism_down
    40.7306 (-73.9353) 0.375 = None.
Proof.
  split; [reflexivity | split; [reflexivity | split; [reflexivity |]]].
  apply lifestyle_essentials_all_or_nothing.
  exists "tourism"%string. split; [simpl; tauto | reflexivity].
Defined.

